(** * Verification of [multi_agent_implementation.py]

    A shallow embedding of the two pieces of logic the script owns: the
    termination predicate [ApprovalTerminationStrategy.should_agent_terminate]
    and the turn driver [run_multi_agent].  The agent-orchestration
    framework (semantic_kernel) is an external interface: its operations are
    the methods of the class [Framework] below and every theorem about the
    driver holds for every implementation of that interface.

    Python values are modelled as a small universe of immutable trees,
    objects as finite maps from attribute names to values, and Python code as
    computations in a state-and-exception monad [Py W]: a computation takes a
    world [W], and gives back an outcome (a returned value, a raised exception
    or fuel exhaustion of the model) together with the world it leaves. *)

From Stdlib Require Import ZArith Ascii String List Lia.
From stdpp Require Import base option list strings gmap pretty.

Set Warnings "-register-all".
Local Open Scope string_scope.
Local Open Scope Z_scope.

(** ** Python values *)

Module Python.

(** The values that may sit in an attribute.  A [PyStr] is a sequence of
    code points below 256, one [ascii] per code point. *)
Inductive PyVal : Type :=
| PyNone
| PyBool (b : bool)
| PyInt (z : Z)
| PyStr (s : string)
| PyList (items : list PyVal).

(** An object is its attribute dictionary. *)
Abbreviation PyObject := (gmap string PyVal).

(** *** [repr] and [str] *)

Definition hex_digit (n : N) : ascii :=
  match n with
  | 0 => "0" | 1 => "1" | 2 => "2" | 3 => "3" | 4 => "4" | 5 => "5"
  | 6 => "6" | 7 => "7" | 8 => "8" | 9 => "9" | 10 => "a" | 11 => "b"
  | 12 => "c" | 13 => "d" | 14 => "e" | _ => "f"
  end%N%char.

(** [str.isprintable] on the code points below 256: the C0 and C1 controls,
    DEL, the no-break space U+00A0 and the soft hyphen U+00AD are not. *)
Definition is_printable (c : ascii) : bool :=
  let n := N_of_ascii c in
  ((32 <=? n) && (n <? 127) || (161 <=? n) && negb (n =? 173))%N.

(** One character of the body of [repr(s)], [quote] being the delimiter that
    [repr] chose. *)
Definition repr_char (quote c : ascii) : string :=
  if Ascii.eqb c quote then String "\" (String c "")
  else if Ascii.eqb c "\" then "\\"
  else if Ascii.eqb c "009" then "\t"
  else if Ascii.eqb c "010" then "\n"
  else if Ascii.eqb c "013" then "\r"
  else if is_printable c then String c ""
  else
    let n := N_of_ascii c in
    String "\" (String "x" (String (hex_digit (n / 16)) (String (hex_digit (n mod 16)) ""))).

Fixpoint repr_body (quote : ascii) (s : string) : string :=
  match s with
  | EmptyString => ""
  | String c s' => repr_char quote c +:+ repr_body quote s'
  end.

Fixpoint has_char (c : ascii) (s : string) : bool :=
  match s with
  | EmptyString => false
  | String d s' => Ascii.eqb c d || has_char c s'
  end.

(** How many times a character occurs in a string. *)
Fixpoint count_char (c : ascii) (s : string) : nat :=
  match s with
  | EmptyString => O
  | String d s' => ((if Ascii.eqb c d then 1 else 0) + count_char c s')%nat
  end.

Definition double_quote : ascii := "034"%char.

(** [repr] of a string: single quotes, unless the string holds a single quote
    and no double quote. *)
Definition repr_str (s : string) : string :=
  let quote : ascii :=
    if has_char "'" s && negb (has_char double_quote s) then double_quote else "'"%char in
  String quote (repr_body quote s) +:+ String quote "".

Fixpoint py_repr (v : PyVal) : string :=
  match v with
  | PyNone => "None"
  | PyBool true => "True"
  | PyBool false => "False"
  | PyInt z => pretty z
  | PyStr s => repr_str s
  | PyList items =>
      "[" +:+
      (fix join (l : list PyVal) : string :=
         match l with
         | [] => ""
         | [x] => py_repr x
         | x :: l' => py_repr x +:+ ", " +:+ join l'
         end) items
      +:+ "]"
  end.

(** [str(v)]: the string itself for a string, [repr(v)] for the rest. *)
Definition py_str (v : PyVal) : string :=
  match v with
  | PyStr s => s
  | _ => py_repr v
  end.

(** [format(v, "")], what an f-string field [{v}] evaluates to. *)
Definition py_format (v : PyVal) : string := py_str v.

(** *** Substring test: [needle in s] *)

Fixpoint py_in (needle s : string) : bool :=
  String.prefix needle s ||
  match s with
  | EmptyString => false
  | String _ s' => py_in needle s'
  end.

(** The mathematical meaning of containment. *)
Definition substring_of (needle s : string) : Prop :=
  exists pre post : string, s = pre +:+ needle +:+ post.

(** ** The monad of Python computations *)

Inductive PyException : Type :=
| IndexError
| AttributeError (attr : string)
| ValueError
| RecursionError
| FrameworkError (detail : string).

Inductive Outcome (A : Type) : Type :=
| Return (a : A)
| Raise (e : PyException)
| OutOfFuel.
Arguments Return {A} a.
Arguments Raise {A} e.
Arguments OutOfFuel {A}.

Definition Py (W A : Type) : Type := W -> Outcome A * W.

Definition ret {W A} (a : A) : Py W A := fun w => (Return a, w).

Definition raise {W A} (e : PyException) : Py W A := fun w => (Raise e, w).

Definition bind {W A B} (m : Py W A) (k : A -> Py W B) : Py W B :=
  fun w =>
    match m w with
    | (Return a, w') => k a w'
    | (Raise e, w') => (Raise e, w')
    | (OutOfFuel, w') => (OutOfFuel, w')
    end.

Declare Scope py_scope.
Delimit Scope py_scope with py.
Notation "'let!' x ':=' m 'in' k" := (bind m (fun x => k))
  (at level 10, x name, m at level 100, k at level 200) : py_scope.
Notation "'run!' m 'in' k" := (bind m (fun _ => k))
  (at level 10, m at level 100, k at level 200) : py_scope.

Local Open Scope py_scope.

(** *** Primitives *)

(** [bool(l)] for a list. *)
Definition py_truthy {A} (l : list A) : bool :=
  match l with
  | [] => false
  | _ :: _ => true
  end.

(** [l[i]], with Python's negative indices and its [IndexError]. *)
Definition py_getitem {W A} (l : list A) (i : Z) : Py W A :=
  let n := Z.of_nat (length l) in
  let j := if i <? 0 then i + n else i in
  if (j <? 0) || (n <=? j) then raise IndexError
  else
    match l !! Z.to_nat j with
    | Some x => ret x
    | None => raise IndexError
    end.

Definition hasattr {W} (o : PyObject) (name : string) : Py W bool :=
  ret (bool_decide (is_Some (o !! name))).

Definition getattr {W} (o : PyObject) (name : string) : Py W PyVal :=
  match o !! name with
  | Some v => ret v
  | None => raise (AttributeError name)
  end.

(** [a and b] on booleans: [b] is not evaluated when [a] is false. *)
Definition py_and {W} (a b : Py W bool) : Py W bool :=
  let! x := a in if x then b else ret false.

End Python.

(** ** The termination predicate (lines 16-27) *)

Module Termination.
Import Python.
Local Open Scope py_scope.

(** A [ChatCompletionAgent] as the script configures it: a persona (name and
    instructions) bound to a kernel and a service id. *)
Record Agent (K : Type) : Type := ChatCompletionAgent {
  agent_service_id : string;
  agent_kernel : K;
  agent_name : string;
  agent_instructions : string
}.
Arguments ChatCompletionAgent {K} _ _ _ _.
Arguments agent_name {K} _.
Arguments agent_instructions {K} _.

(** The class adds no field of its own. *)
Inductive ApprovalTerminationStrategy : Type := ApprovalTerminationStrategy_new.

(** The phrase the predicate looks for. *)
Definition sentinel : string := "READY FOR USER APPROVAL".

Definition should_agent_terminate {W K} (self : ApprovalTerminationStrategy)
    (agent : Agent K) (history : list PyObject) : Py W bool :=
  if py_truthy history then
    let! last_message := py_getitem history (-1) in
    let! found :=
      py_and (hasattr last_message "content")
             (let! content := getattr last_message "content" in
              ret (py_in "READY FOR USER APPROVAL" (py_str content))) in
    if found then ret true else ret false
  else ret false.

(** The text of a message as [str(message.content)] gives it, when the
    message has a content at all. *)
Definition content_text (message : PyObject) : option string :=
  py_str <$> (message !! "content").

(** The value a call returns, in closed form (see
    [should_agent_terminate_run]). *)
Definition verdict (history : list PyObject) : bool :=
  match last history with
  | Some m =>
      match m !! "content" with
      | Some content => py_in sentinel (py_str content)
      | None => false
      end
  | None => false
  end.

(** The condition of the specification: the history is not empty and the
    content of its last message contains the sentinel. *)
Definition last_message_has_sentinel (history : list PyObject) : Prop :=
  exists m text,
    last history = Some m /\ content_text m = Some text /\ substring_of sentinel text.

(** *** Letter case, for the case-sensitivity claim *)

Definition lower_char (c : ascii) : ascii :=
  let n := N_of_ascii c in
  if ((65 <=? n) && (n <=? 90))%N then ascii_of_N (n + 32) else c.

Fixpoint lower (s : string) : string :=
  match s with
  | EmptyString => EmptyString
  | String c s' => String (lower_char c) (lower s')
  end.

(** [v] spells the sentinel with some letters in the other case. *)
Definition case_variant (v : string) : Prop :=
  lower v = lower sentinel /\ v <> sentinel.

(** A value that shows the sentinel: a string containing it, or a list
    holding, at any depth, such a string. *)
Inductive shows_sentinel : PyVal -> Prop :=
| shows_str s :
    substring_of sentinel s -> shows_sentinel (PyStr s)
| shows_list items v :
    In v items -> shows_sentinel v -> shows_sentinel (PyList items).

(** A value without text of its own: [None], a boolean or an integer. *)
Definition is_scalar (v : PyVal) : bool :=
  match v with
  | PyNone | PyBool _ | PyInt _ => true
  | PyStr _ | PyList _ => false
  end.

End Termination.

(** ** The turn driver (lines 30-103) *)

Module Driver.
Import Python Termination.
Local Open Scope py_scope.

Inductive AuthorRole : Type := SYSTEM | USER | ASSISTANT | TOOL.

Definition author_role_value (role : AuthorRole) : string :=
  match role with
  | SYSTEM => "system"
  | USER => "user"
  | ASSISTANT => "assistant"
  | TOOL => "tool"
  end.

(** [ChatMessageContent(role=..., content=...)]: a message object; its
    author name is [None] until an agent signs it. *)
Definition ChatMessageContent (role : AuthorRole) (content : string) : PyObject :=
  <["role" := PyStr (author_role_value role)]>
    (<["name" := PyNone]> (<["content" := PyStr content]> ∅)).

(** What the loop body reads from a response. *)
Definition is_chat_message (o : PyObject) : Prop :=
  is_Some (o !! "name") /\ is_Some (o !! "content").

(** The orchestration framework, as far as the script calls into it.  Every
    operation runs on the framework's own state and may raise. *)
Class Framework : Type := {
  fw_state : Type;
  Kernel : Type;
  Service : Type;
  SelectionStrategy : Type;
  GroupChat : Type;
  ResponseStream : Type;
  Kernel_new : Py fw_state Kernel;
  AzureChatCompletion : string -> Py fw_state Service;
  add_service : Kernel -> Service -> Py fw_state unit;
  KernelFunctionSelectionStrategy : Py fw_state SelectionStrategy;
  AgentGroupChat :
    list (Agent Kernel) -> SelectionStrategy ->
    (Agent Kernel -> list PyObject -> Py fw_state bool) ->
    Py fw_state GroupChat;
  add_chat_message : GroupChat -> PyObject -> Py fw_state unit;
  (** Calling the async generator function only creates the generator. *)
  invoke : GroupChat -> ResponseStream;
  (** [__anext__]: the next response, or [None] for [StopAsyncIteration]. *)
  anext : ResponseStream -> Py fw_state (option PyObject)
}.

Section Driver.
Context `{FW : Framework}.

(** The world the driver runs in: what has been written to the console, and
    the framework's state. *)
Record World : Type := mkWorld {
  stdout : string;
  framework : fw_state
}.

(** A call into the framework: it runs on the framework part of the world. *)
Definition call {A} (m : Py fw_state A) : Py World A :=
  fun w =>
    let (o, f) := m (framework w) in
    (o, {| stdout := stdout w; framework := f |}).

Definition newline : string := String "010" "".

(** [print(s)]: the text and a line feed, appended to the console. *)
Definition print (s : string) : Py World unit :=
  fun w => (Return tt, {| stdout := stdout w +:+ s +:+ newline; framework := framework w |}).

Definition create_agents {W} (kernel : Kernel)
    : Py W (Agent Kernel * Agent Kernel * Agent Kernel) :=
  let business_analyst :=
    ChatCompletionAgent "chat-completion" kernel "BusinessAnalyst"
      "You are a Business Analyst which will take the requirements from the user (also known as a 'customer') and create a project plan for creating the requested app. The Business Analyst understands the user requirements and creates detailed documents with requirements and costing. The documents should be usable by the SoftwareEngineer as a reference for implementing the required features, and by the Product Owner for reference to determine if the application delivered by the Software Engineer meets all of the user's requirements." in
  let software_engineer :=
    ChatCompletionAgent "chat-completion" kernel "SoftwareEngineer"
      "You are a Software Engineer, and your goal is create a web app using HTML and JavaScript by taking into consideration all the requirements given by the Business Analyst. The application should implement all the requested features. Deliver the code to the Product Owner for review when completed. You can also ask questions of the BusinessAnalyst to clarify any requirements that are unclear." in
  let product_owner :=
    ChatCompletionAgent "chat-completion" kernel "ProductOwner"
      "You are the Product Owner which will review the software engineer's code to ensure all user requirements are completed. You are the guardian of quality, ensuring the final product meets all specifications. IMPORTANT: Verify that the Software Engineer has shared the HTML code using the format ```html [code] ```. This format is required for the code to be saved and pushed to GitHub. Once all client requirements are completed and the code is properly formatted, reply with 'READY FOR USER APPROVAL'. If there are missing features or formatting issues, you will need to send a request back to the SoftwareEngineer or BusinessAnalyst with details of the defect." in
  ret (business_analyst, software_engineer, product_owner).

(** The body of the [async for] loop at lines 99-101, [responses] being the
    list built so far.  [fuel] bounds the number of [__anext__] calls. *)
Fixpoint async_for (fuel : nat) (stream : ResponseStream) (responses : list PyObject)
    : Py World (list PyObject) :=
  match fuel with
  | O => fun w => (OutOfFuel, w)
  | S fuel' =>
      let! next := call (anext stream) in
      match next with
      | None => ret responses
      | Some response =>
          let responses := (responses ++ [response])%list in
          let! name := getattr response "name" in
          let! content := getattr response "content" in
          run! print (py_format name +:+ ": " +:+ py_format content) in
          async_for fuel' stream responses
      end
  end.

Definition run_multi_agent (fuel : nat) (input : string) : Py World (list PyObject) :=
  let! kernel := call Kernel_new in
  let! chat_service := call (AzureChatCompletion "chat-completion") in
  run! call (add_service kernel chat_service) in
  let! agents := create_agents kernel in
  let '(business_analyst, software_engineer, product_owner) := agents in
  let termination_strategy := ApprovalTerminationStrategy_new in
  let! selection_strategy := call KernelFunctionSelectionStrategy in
  let! agent_group_chat :=
    call (AgentGroupChat [business_analyst; software_engineer; product_owner]
            selection_strategy
            (should_agent_terminate termination_strategy)) in
  run! call (add_chat_message agent_group_chat (ChatMessageContent USER input)) in
  let! responses := async_for fuel (invoke agent_group_chat) [] in
  ret responses.

(** The request [main] sends (line 108). *)
Definition user_input : string :=
  "I need a simple calculator web app that can perform basic arithmetic operations (addition, subtraction, multiplication, division)".

(** The recap loop of [main], lines 113-114. *)
Fixpoint for_response_print (responses : list PyObject) : Py World unit :=
  match responses with
  | [] => ret tt
  | response :: rest =>
      let! name := getattr response "name" in
      let! content := getattr response "content" in
      run! print (py_format name +:+ ": " +:+ py_format content) in
      for_response_print rest
  end.

Definition main (fuel : nat) : Py World unit :=
  let user_input :=
    "I need a simple calculator web app that can perform basic arithmetic operations (addition, subtraction, multiplication, division)" in
  let! responses := run_multi_agent fuel user_input in
  run! print (newline +:+ "=== CONVERSATION COMPLETED ===") in
  for_response_print responses.

(** What [main] prints between the conversation and its recap. *)
Definition banner : string :=
  newline +:+ "=== CONVERSATION COMPLETED ===" +:+ newline.

(** *** What the framework did, as the theorems' hypotheses name it *)

(** The line the loop prints for a response. *)
Definition console_line (response : PyObject) : string :=
  match response !! "name", response !! "content" with
  | Some name, Some content => py_format name +:+ ": " +:+ py_format content +:+ newline
  | _, _ => ""
  end.

Fixpoint console_lines (responses : list PyObject) : string :=
  match responses with
  | [] => ""
  | r :: rs => console_line r +:+ console_lines rs
  end.

(** How a response stream ends. *)
Inductive StreamEnd : Type :=
| Stopped
| Failed (e : PyException).

(** [stream_yields s f rs e f']: from framework state [f], the stream [s]
    yields the responses [rs] one after the other and then ends with [e],
    leaving the framework in [f']. *)
Inductive stream_yields (s : ResponseStream)
    : fw_state -> list PyObject -> StreamEnd -> fw_state -> Prop :=
| yields_stop f f' :
    anext s f = (Return None, f') ->
    stream_yields s f [] Stopped f'
| yields_fail f f' e :
    anext s f = (Raise e, f') ->
    stream_yields s f [] (Failed e) f'
| yields_more f f1 f' r rs e :
    anext s f = (Return (Some r), f1) ->
    stream_yields s f1 rs e f' ->
    stream_yields s f (r :: rs) e f'.

(** The three personas bound to a kernel. *)
Definition agents_of (kernel : Kernel) : list (Agent Kernel) :=
  match fst (create_agents (W:=unit) kernel tt) with
  | Return (a, b, c) => [a; b; c]
  | _ => []
  end.

(** The steps before the loop, each reached with all earlier ones done. *)
Definition kernel_built (f : fw_state) (k : Kernel) (f1 : fw_state) : Prop :=
  Kernel_new f = (Return k, f1).

Definition service_built (f : fw_state) (k : Kernel) (svc : Service) (f2 : fw_state) : Prop :=
  exists f1, kernel_built f k f1 /\
    AzureChatCompletion "chat-completion" f1 = (Return svc, f2).

Definition service_added (f : fw_state) (k : Kernel) (f3 : fw_state) : Prop :=
  exists svc f2, service_built f k svc f2 /\
    add_service k svc f2 = (Return tt, f3).

Definition selection_built (f : fw_state) (k : Kernel) (sel : SelectionStrategy)
    (f4 : fw_state) : Prop :=
  exists f3, service_added f k f3 /\
    KernelFunctionSelectionStrategy f3 = (Return sel, f4).

Definition chat_built (f : fw_state) (chat : GroupChat) (f5 : fw_state) : Prop :=
  exists k sel f4, selection_built f k sel f4 /\
    AgentGroupChat (agents_of k) sel
      (should_agent_terminate ApprovalTerminationStrategy_new) f4 = (Return chat, f5).

Definition message_added (input : string) (f : fw_state) (chat : GroupChat)
    (f6 : fw_state) : Prop :=
  exists f5, chat_built f chat f5 /\
    add_chat_message chat (ChatMessageContent USER input) f5 = (Return tt, f6).

(** [orchestrator_fails input f rs e f']: started in framework state [f], a
    step of the framework raises [e] and leaves the framework in [f'], after
    the stream has yielded the responses [rs] (none when the failing step
    comes before the loop). *)
Inductive orchestrator_fails (input : string) (f : fw_state)
    : list PyObject -> PyException -> fw_state -> Prop :=
| fails_kernel e f' :
    Kernel_new f = (Raise e, f') ->
    orchestrator_fails input f [] e f'
| fails_service e k f1 f' :
    kernel_built f k f1 ->
    AzureChatCompletion "chat-completion" f1 = (Raise e, f') ->
    orchestrator_fails input f [] e f'
| fails_add_service e k svc f2 f' :
    service_built f k svc f2 ->
    add_service k svc f2 = (Raise e, f') ->
    orchestrator_fails input f [] e f'
| fails_selection e k f3 f' :
    service_added f k f3 ->
    KernelFunctionSelectionStrategy f3 = (Raise e, f') ->
    orchestrator_fails input f [] e f'
| fails_chat e k sel f4 f' :
    selection_built f k sel f4 ->
    AgentGroupChat (agents_of k) sel
      (should_agent_terminate ApprovalTerminationStrategy_new) f4 = (Raise e, f') ->
    orchestrator_fails input f [] e f'
| fails_message e chat f5 f' :
    chat_built f chat f5 ->
    add_chat_message chat (ChatMessageContent USER input) f5 = (Raise e, f') ->
    orchestrator_fails input f [] e f'
| fails_stream e chat f6 rs f' :
    message_added input f chat f6 ->
    stream_yields (invoke chat) f6 rs (Failed e) f' ->
    Forall is_chat_message rs ->
    orchestrator_fails input f rs e f'.

(** [stream_reaches s f rs f']: from [f], the stream [s] yields [rs] and is
    then in state [f'], with more to come or not. *)
Inductive stream_reaches (s : ResponseStream)
    : fw_state -> list PyObject -> fw_state -> Prop :=
| reaches_here f :
    stream_reaches s f [] f
| reaches_more f f1 f' r rs :
    anext s f = (Return (Some r), f1) ->
    stream_reaches s f1 rs f' ->
    stream_reaches s f (r :: rs) f'.

(** The attribute the loop body misses first on an object that is no chat
    message: it reads [name] before [content]. *)
Definition missing_attribute (o : PyObject) : string :=
  match o !! "name" with
  | None => "name"
  | Some _ => "content"
  end.

End Driver.
End Driver.

(** ** A scripted framework

    One implementation of [Framework], used to run the driver on concrete
    conversations: the agents' replies are written down in advance, the
    service is constructed only when credentials are configured, and the
    response stream stops once the termination predicate it was given
    fires. *)

Module Scripted.
Import Python Termination Driver.
Local Open Scope py_scope.

Inductive Reply : Type :=
| Says (response : PyObject)
| Breaks (e : PyException).

Record Stage : Type := mkStage {
  credentials : bool;
  history : list PyObject;
  script : list Reply;
  finished : bool
}.

Definition Chat : Type :=
  (list (Agent unit) * (Agent unit -> list PyObject -> Py Stage bool))%type.

Definition nobody : Agent unit := ChatCompletionAgent "" tt "" "".

(** Round-robin: who speaks after [n] messages. *)
Definition speaker (agents : list (Agent unit)) (n : nat) : Agent unit :=
  nth (n mod (length agents)) agents nobody.

Definition scripted_anext (chat : Chat) : Py Stage (option PyObject) :=
  fun s =>
    if finished s then (Return None, s)
    else
      match script s with
      | [] => (Return None, s)
      | Breaks e :: rest =>
          (Raise e, mkStage (credentials s) (history s) rest (finished s))
      | Says r :: rest =>
          let h := (history s ++ [r])%list in
          let s1 := mkStage (credentials s) h rest false in
          match snd chat (speaker (fst chat) (length (history s))) h s1 with
          | (Return b, s2) =>
              (Return (Some r), mkStage (credentials s2) (history s2) (script s2) b)
          | (Raise e, s2) => (Raise e, s2)
          | (OutOfFuel, s2) => (OutOfFuel, s2)
          end
      end.

Definition scripted : Framework := {|
  fw_state := Stage;
  Kernel := unit;
  Service := unit;
  SelectionStrategy := unit;
  GroupChat := Chat;
  ResponseStream := Chat;
  Kernel_new := ret tt;
  AzureChatCompletion := fun service_id s =>
    if credentials s then (Return tt, s)
    else (Raise (FrameworkError "ServiceInitializationError"), s);
  add_service := fun _ _ => ret tt;
  KernelFunctionSelectionStrategy := ret tt;
  AgentGroupChat := fun agents _ terminate => ret (agents, terminate);
  add_chat_message := fun _ message s =>
    (Return tt,
     mkStage (credentials s) (history s ++ [message])%list (script s) (finished s));
  invoke := fun chat => chat;
  anext := scripted_anext
|}.

(** A reply signed by an agent. *)
Definition reply (name content : string) : PyObject :=
  <["name" := PyStr name]> (ChatMessageContent ASSISTANT content).

Definition plan : PyObject :=
  reply "BusinessAnalyst" "Requirements: a calculator with four operations.".
Definition code : PyObject :=
  reply "SoftwareEngineer" "```html <button>+</button> ```".
Definition approval : PyObject :=
  reply "ProductOwner" "All requirements met. READY FOR USER APPROVAL".
Definition afterthought : PyObject :=
  reply "BusinessAnalyst" "One more thing.".

(** The sentinel in lower case. *)
Definition murmur : PyObject :=
  reply "ProductOwner" "ready for user approval".

(** An object that is no message: it has no attribute. *)
Definition stray : PyObject := ∅.

(** A message whose content is a list holding the sentinel. *)
Definition boxed : PyObject :=
  <["content" := PyList [PyStr "READY FOR USER APPROVAL"]]> approval.

(** A conversation of which the fourth reply is never asked for. *)
Definition conversation : list Reply :=
  [Says plan; Says code; Says approval; Says afterthought].

(** A conversation cut short by the network. *)
Definition broken_conversation : list Reply :=
  [Says plan; Breaks (FrameworkError "ConnectionError"); Says code].

Definition start (creds : bool) (replies : list Reply) : World (FW:=scripted) :=
  mkWorld (FW:=scripted) "" (mkStage creds [] replies false).

(** A response that lost its content. *)
Definition hollow : PyObject := delete "content" code.

(** A conversation in which the second response is no chat message. *)
Definition garbled_conversation : list Reply :=
  [Says plan; Says hollow; Says approval].

(** A message whose content nests the approval two lists deep. *)
Definition nested : PyObject :=
  <["content" := PyList [PyInt 1; PyList [PyNone; PyStr "so: READY FOR USER APPROVAL!"]]]>
    approval.

(** A message whose content is a number. *)
Definition counted : PyObject := <["content" := PyInt (-42)]> approval.

End Scripted.

(** ** [str()] as the interpreter runs it

    Module [Python] gives every value its text.  The interpreter does not
    always get that far: converting an integer with too many digits raises
    [ValueError], a list nested deeper than the interpreter has room for
    raises [RecursionError], an object of a user-defined class runs its own
    [__str__], and an attribute may be a property whose getter runs code.
    Module [CPython] embeds the predicate once more over objects of that
    kind; where [str()] returns, it returns the text of module [Python]
    (see [str_builtin_text]). *)

Module CPython.
Import Python Termination.
Local Open Scope py_scope.

(** The limits of the running interpreter. *)
Record Limits : Type := mkLimits {
  (** [sys.get_int_max_str_digits()]; [0] switches the check off. *)
  int_max_str_digits : nat;
  (** How many levels of list nesting [repr] can still enter. *)
  recursion_room : nat
}.

(** An interpreter with its settings untouched: 4300 digits, and room for
    no more than the 1000 levels of [sys.getrecursionlimit()]. *)
Definition default_limits : Limits := mkLimits 4300 1000.

(** An integer of more decimal digits than the limit allows. *)
Definition exceeds_digits (L : Limits) (z : Z) : bool :=
  match int_max_str_digits L with
  | O => false
  | S _ as n => 10 ^ Z.of_nat n <=? Z.abs z
  end.

Definition and_then {A B} (o : Outcome A) (k : A -> Outcome B) : Outcome B :=
  match o with
  | Return a => k a
  | Raise e => Raise e
  | OutOfFuel => OutOfFuel
  end.

(** [repr(v)] with [room] levels of nesting left: the elements of a list are
    converted from left to right and the first failure ends the call. *)
Fixpoint repr_call (L : Limits) (room : nat) (v : PyVal) {struct v} : Outcome string :=
  match v with
  | PyInt z => if exceeds_digits L z then Raise ValueError else Return (pretty z)
  | PyList items =>
      match room with
      | O => Raise RecursionError
      | S room' =>
          and_then
            ((fix join (l : list PyVal) : Outcome string :=
                match l with
                | [] => Return ""
                | [x] => repr_call L room' x
                | x :: l' =>
                    and_then (repr_call L room' x) (fun a =>
                    and_then (join l') (fun b =>
                    Return (a +:+ ", " +:+ b)))
                end) items)
            (fun body => Return ("[" +:+ body +:+ "]"))
      end
  | _ => Return (py_repr v)
  end.

(** [str(v)] for a value of a built-in type. *)
Definition str_builtin (L : Limits) (v : PyVal) : Outcome string :=
  match v with
  | PyStr s => Return s
  | _ => repr_call L (recursion_room L) v
  end.

(** A value: of a built-in type, or an instance of a user-defined class,
    which is known here by what its [__str__] does. *)
Inductive Value (W : Type) : Type :=
| Builtin (v : PyVal)
| Custom (str_method : Py W string).
Arguments Builtin {W} v.
Arguments Custom {W} str_method.

(** An attribute: stored in the object, or computed by a property. *)
Inductive Attribute (W : Type) : Type :=
| Plain (v : Value W)
| Property (getter : Py W (Value W)).
Arguments Plain {W} v.
Arguments Property {W} getter.

Abbreviation Object W := (gmap string (Attribute W)).

Definition str {W} (L : Limits) (v : Value W) : Py W string :=
  match v with
  | Builtin b => fun w => (str_builtin L b, w)
  | Custom str_method => str_method
  end.

(** [getattr(o, name)]: a property runs its getter. *)
Definition getattr {W} (o : Object W) (name : string) : Py W (Value W) :=
  match o !! name with
  | Some (Plain v) => ret v
  | Some (Property getter) => getter
  | None => raise (AttributeError name)
  end.

(** [hasattr(o, name)]: [getattr] is called and its value dropped; only
    [AttributeError] is turned into [False]. *)
Definition hasattr {W} (o : Object W) (name : string) : Py W bool :=
  fun w =>
    match getattr o name w with
    | (Return _, w') => (Return true, w')
    | (Raise (AttributeError _), w') => (Return false, w')
    | (Raise e, w') => (Raise e, w')
    | (OutOfFuel, w') => (OutOfFuel, w')
    end.

Definition should_agent_terminate {W K} (L : Limits)
    (self : ApprovalTerminationStrategy) (agent : Agent K)
    (history : list (Object W)) : Py W bool :=
  if py_truthy history then
    let! last_message := py_getitem history (-1) in
    let! found :=
      py_and (hasattr last_message "content")
             (let! content := getattr last_message "content" in
              let! text := str L content in
              ret (py_in "READY FOR USER APPROVAL" text)) in
    if found then ret true else ret false
  else ret false.

(** An object of module [Python], all of whose attributes are stored. *)
Definition stored {W} (o : PyObject) : Object W :=
  (fun v => Plain (Builtin v)) <$> o.

(** A value whose own conversion meets the digit limit. *)
Definition overflows (L : Limits) (v : PyVal) : bool :=
  match v with
  | PyInt z => exceeds_digits L z
  | _ => false
  end.

(** The call is quiet on a message when reading its [content] either raises
    [AttributeError] (there is no such attribute) or returns a value whose
    [str()] returns, and neither changes the world.  A message without
    content is such a message, and so is one whose content is a string. *)
Definition quiet_content {W} (L : Limits) (w : W) (m : Object W) : Prop :=
  (exists attr, getattr m "content" w = (Raise (AttributeError attr), w)) \/
  (exists content text,
     getattr m "content" w = (Return content, w) /\
     str L content w = (Return text, w)).

(** *** Sample messages *)

(** A message whose content is the integer 10^4300, of 4301 digits. *)
Definition overflowing {W} : Object W :=
  {["content" := Plain (Builtin (PyInt (10 ^ 4300)))]}.


(** A list nested [n] levels around the sentinel. *)
Fixpoint wrapped (n : nat) : PyVal :=
  match n with
  | O => PyStr "READY FOR USER APPROVAL"
  | S n' => PyList [wrapped n']
  end.

(** A message whose content wraps the sentinel in 5000 lists. *)
Definition deep {W} : Object W :=
  {["content" := Plain (Builtin (wrapped 5000))]}.

End CPython.

(** ** Facts about the Python primitives *)

Module PythonFacts.
Import Python.
Local Open Scope py_scope.

Lemma prefix_app (needle s : string) :
  String.prefix needle s = true <-> exists post, s = needle +:+ post.
Proof.
  revert s. induction needle as [|c needle IH]; intros s; simpl.
  - split; [intros _; exists s; reflexivity | intros _; now destruct s].
  - destruct s as [|d s]; simpl.
    + split; [discriminate | intros [post H]; discriminate].
    + destruct (ascii_dec c d) as [->|Hne].
      * rewrite IH. split; intros [post H]; exists post.
        -- now rewrite H.
        -- now injection H.
      * split; [discriminate | intros [post H]; injection H; congruence].
Qed.

Lemma py_in_spec (needle s : string) :
  py_in needle s = true <-> substring_of needle s.
Proof.
  unfold substring_of. induction s as [|d s IH].
  - change (py_in needle "") with (String.prefix needle "" || false).
    rewrite orb_false_r, prefix_app. split.
    + intros [post H]. exists "", post. exact H.
    + intros [pre [post H]]. destruct pre; simpl in H.
      * exists post. exact H.
      * discriminate.
  - change (py_in needle (String d s))
      with (String.prefix needle (String d s) || py_in needle s).
    rewrite orb_true_iff, IH, prefix_app. split.
    + intros [[post H] | [pre [post H]]].
      * exists "", post. exact H.
      * exists (String d pre), post. simpl. now rewrite H.
    + intros [pre [post H]]. destruct pre as [|c pre]; simpl in H.
      * left. exists post. exact H.
      * right. injection H as _ H. exists pre, post. exact H.
Qed.

Lemma py_in_false (needle s : string) :
  py_in needle s = false <-> ~ substring_of needle s.
Proof.
  rewrite <- py_in_spec. destruct (py_in needle s); split; congruence.
Qed.

Lemma append_assoc (a b c : string) : (a +:+ b) +:+ c = a +:+ b +:+ c.
Proof.
  induction a as [|x a IH]; [reflexivity|].
  change (String x ((a +:+ b) +:+ c) = String x (a +:+ b +:+ c)).
  now rewrite IH.
Qed.

Lemma substring_of_app_l (needle a b : string) :
  substring_of needle a -> substring_of needle (a +:+ b).
Proof.
  intros (pre & post & ->). exists pre, (post +:+ b).
  now rewrite !append_assoc.
Qed.

Lemma substring_of_app_r (needle a b : string) :
  substring_of needle b -> substring_of needle (a +:+ b).
Proof.
  intros (pre & post & ->). exists (a +:+ pre), post.
  now rewrite !append_assoc.
Qed.

(** [str()] of a list shows the strings it holds: a list holding the string
    [s] has every substring of [repr(s)] in its text. *)
Lemma py_str_list_holds (needle s : string) (items : list PyVal) :
  In (PyStr s) items ->
  substring_of needle (repr_str s) ->
  substring_of needle (py_str (PyList items)).
Proof.
  intros Hin Hsub.
  change (py_str (PyList items)) with (py_repr (PyList items)).
  cbn [py_repr]. apply substring_of_app_r, substring_of_app_l.
  induction items as [|x items IH]; [contradiction|].
  destruct items as [|y items].
  - destruct Hin as [->|[]]. exact Hsub.
  - destruct Hin as [->|Hin].
    + apply substring_of_app_l. exact Hsub.
    + apply substring_of_app_r, substring_of_app_r, IH, Hin.
Qed.

Lemma py_truthy_last {A} (l : list A) :
  py_truthy l = true <-> is_Some (last l).
Proof.
  destruct l as [|x l]; simpl.
  - split; [discriminate | intros [y H]; discriminate].
  - split; [intros _ | reflexivity].
    rewrite last_cons. destruct (last l); eauto.
Qed.

(** [l[-1]] is the last element, and raises on the empty list only. *)
Lemma py_getitem_last {W A} (l : list A) (x : A) (w : W) :
  last l = Some x -> py_getitem l (-1) w = (Return x, w).
Proof.
  intros H. apply last_Some in H as [l' ->].
  assert (Hlen : Z.of_nat (length (l' ++ [x])) = Z.of_nat (length l') + 1)
    by (rewrite length_app, Nat2Z.inj_add; reflexivity).
  unfold py_getitem. rewrite Hlen.
  change (-1 <? 0) with true. cbv zeta iota.
  replace (-1 + (Z.of_nat (length l') + 1)) with (Z.of_nat (length l')) by lia.
  destruct (Z.ltb_spec (Z.of_nat (length l')) 0); [lia|].
  destruct (Z.leb_spec (Z.of_nat (length l') + 1) (Z.of_nat (length l'))); [lia|].
  cbn [orb]. rewrite Nat2Z.id.
  rewrite lookup_app_r by lia. rewrite Nat.sub_diag. reflexivity.
Qed.

Lemma py_getitem_empty {W A} (i : Z) (w : W) :
  py_getitem (A:=A) [] i w = (Raise IndexError, w).
Proof.
  unfold py_getitem. change (Z.of_nat (length [])) with 0. cbv zeta.
  destruct (Z.ltb_spec i 0).
  - rewrite Z.add_0_r. destruct (Z.ltb_spec i 0); [reflexivity | lia].
  - destruct (Z.ltb_spec i 0); [lia|].
    destruct (Z.leb_spec 0 i); [reflexivity | lia].
Qed.

(** Running a bind whose first computation returns. *)
Lemma bind_return {W A B} (m : Py W A) (k : A -> Py W B) (w w' : W) (a : A) :
  m w = (Return a, w') -> bind m k w = k a w'.
Proof. intros H. unfold bind. now rewrite H. Qed.

(** No handler: what the first computation raises, the bind raises. *)
Lemma bind_raise {W A B} (m : Py W A) (k : A -> Py W B) (w w' : W) (e : PyException) :
  m w = (Raise e, w') -> bind m k w = (Raise e, w').
Proof. intros H. unfold bind. now rewrite H. Qed.

Lemma getattr_some {W} (o : PyObject) (name : string) (v : PyVal) (w : W) :
  o !! name = Some v -> getattr o name w = (Return v, w).
Proof. intros H. unfold getattr. now rewrite H. Qed.

Lemma getattr_none {W} (o : PyObject) (name : string) (w : W) :
  o !! name = None -> getattr o name w = (Raise (AttributeError name), w).
Proof. intros H. unfold getattr. now rewrite H. Qed.

End PythonFacts.

(** ** The termination predicate: theorems *)

Module TerminationFacts.
Import Python PythonFacts Termination.
Local Open Scope py_scope.

Section Predicate.
Context {W K : Type}.
Implicit Types (self : ApprovalTerminationStrategy) (agent : Agent K).
Implicit Types (history : list PyObject) (w : W).

Lemma should_agent_terminate_run self agent history w :
  should_agent_terminate self agent history w = (Return (verdict history), w).
Proof.
  unfold should_agent_terminate, verdict.
  destruct (last history) as [m|] eqn:Hlast.
  - assert (Htruthy : py_truthy history = true)
      by (apply py_truthy_last; eauto).
    rewrite Htruthy.
    rewrite (bind_return _ _ _ _ _ (py_getitem_last _ _ w Hlast)).
    unfold py_and, hasattr, getattr, bind, ret.
    destruct (m !! "content") as [content|] eqn:Hcontent.
    + rewrite bool_decide_true by eauto.
      unfold sentinel. now destruct (py_in _ (py_str content)).
    + rewrite bool_decide_false by (intros [v Hv]; discriminate).
      reflexivity.
  - apply last_None in Hlast as ->. reflexivity.
Qed.

Lemma verdict_true history :
  verdict history = true <-> last_message_has_sentinel history.
Proof.
  unfold verdict, last_message_has_sentinel, content_text.
  destruct (last history) as [m|].
  - destruct (m !! "content") as [content|] eqn:Hcontent.
    + rewrite py_in_spec. split.
      * intros H. exists m, (py_str content). rewrite Hcontent. auto.
      * intros (m' & text & Hm & Htext & Hsub).
        injection Hm as <-. rewrite Hcontent in Htext.
        injection Htext as <-. exact Hsub.
    + split; [discriminate|].
      intros (m' & text & Hm & Htext & _).
      injection Hm as <-. rewrite Hcontent in Htext. discriminate.
  - split; [discriminate|].
    intros (m' & text & Hm & _). discriminate.
Qed.

Lemma verdict_false history :
  verdict history = false <-> ~ last_message_has_sentinel history.
Proof.
  rewrite <- verdict_true. destruct (verdict history); split; congruence.
Qed.

(** C1. The predicate returns [True] exactly when the history is not empty
    and the content of its last message contains "READY FOR USER APPROVAL",
    and it returns [False] in every other case, the empty history included. *)
Theorem terminate_iff_last_contains_sentinel self agent history w :
  (should_agent_terminate self agent history w = (Return true, w)
     <-> last_message_has_sentinel history) /\
  (should_agent_terminate self agent history w = (Return false, w)
     <-> ~ last_message_has_sentinel history) /\
  should_agent_terminate self agent [] w = (Return false, w).
Proof.
  rewrite !should_agent_terminate_run.
  rewrite <- verdict_false, <- verdict_true.
  repeat split; congruence.
Qed.

(** C2. Only the last element of the history is examined: on a non-empty
    history the predicate gives what it gives on the history made of the
    last message alone, whatever the earlier messages hold. *)
Theorem terminate_examines_last_only self agent history m w :
  last history = Some m ->
  should_agent_terminate self agent history w
  = should_agent_terminate self agent [m] w.
Proof.
  intros Hlast. rewrite !should_agent_terminate_run.
  unfold verdict. rewrite Hlast. reflexivity.
Qed.

(** C5. Matching is case-sensitive: when the last message's content holds
    the sentinel spelled in another letter case but not the sentinel itself,
    the predicate returns [False]. *)
Theorem terminate_case_sensitive self agent history m text variant w :
  last history = Some m ->
  content_text m = Some text ->
  case_variant variant ->
  substring_of variant text ->
  ~ substring_of sentinel text ->
  should_agent_terminate self agent history w = (Return false, w).
Proof.
  intros Hlast Htext _ _ Hnot.
  rewrite should_agent_terminate_run. f_equal. f_equal.
  apply verdict_false. intros (m' & text' & Hm & Htext' & Hsub).
  rewrite Hlast in Hm. injection Hm as <-.
  rewrite Htext in Htext'. injection Htext' as <-. contradiction.
Qed.

(** C9. A last message with no [content] attribute makes the predicate
    return [False]; no [AttributeError] is raised. *)
Theorem terminate_no_content_false self agent history m w :
  last history = Some m ->
  m !! "content" = None ->
  should_agent_terminate self agent history w = (Return false, w).
Proof.
  intros Hlast Hnone. rewrite should_agent_terminate_run.
  unfold verdict. rewrite Hlast, Hnone. reflexivity.
Qed.

(** C10. The content goes through [str()] before the test: a content that
    is not a string, and whose [str()] contains the sentinel, makes the
    predicate return [True]. *)
Theorem terminate_coerces_content self agent history m content w :
  last history = Some m ->
  m !! "content" = Some content ->
  (forall s, content <> PyStr s) ->
  substring_of sentinel (py_str content) ->
  should_agent_terminate self agent history w = (Return true, w).
Proof.
  intros Hlast Hcontent _ Hsub. rewrite should_agent_terminate_run.
  unfold verdict. rewrite Hlast, Hcontent.
  apply py_in_spec in Hsub. rewrite Hsub. reflexivity.
Qed.

End Predicate.

(** C8. The result does not depend on the agent argument, and it does not
    depend on who signed the last message either: the sentinel ends the
    conversation whichever agent wrote it. *)
Theorem terminate_agent_independent {W K1 K2 : Type}
    (self : ApprovalTerminationStrategy) (a1 : Agent K1) (a2 : Agent K2)
    (history : list PyObject) (m : PyObject) (author : PyVal) (w : W) :
  should_agent_terminate self a1 history w = should_agent_terminate self a2 history w /\
  should_agent_terminate self a1 (history ++ [<["name" := author]> m]) w
  = should_agent_terminate self a1 (history ++ [m]) w.
Proof.
  rewrite !should_agent_terminate_run. split; [reflexivity|].
  unfold verdict. rewrite !last_snoc.
  rewrite lookup_insert_ne by discriminate. reflexivity.
Qed.

(** *** The theorems at work on concrete histories *)

Import Driver Scripted.

Lemma terminate_examines_last_only_witness :
  should_agent_terminate (W:=unit) ApprovalTerminationStrategy_new nobody
    [approval; plan] tt
  = should_agent_terminate ApprovalTerminationStrategy_new nobody [plan] tt.
Proof. apply terminate_examines_last_only. reflexivity. Defined.

Lemma terminate_case_sensitive_witness :
  should_agent_terminate (W:=unit) ApprovalTerminationStrategy_new nobody
    [plan; murmur] tt
  = (Return false, tt).
Proof.
  apply (terminate_case_sensitive _ _ _ murmur
           "ready for user approval" "ready for user approval").
  - reflexivity.
  - vm_compute. reflexivity.
  - split; [reflexivity | discriminate].
  - exists "", "". reflexivity.
  - apply py_in_false. vm_compute. reflexivity.
Defined.

Lemma terminate_no_content_false_witness :
  should_agent_terminate (W:=unit) ApprovalTerminationStrategy_new nobody
    [approval; stray] tt
  = (Return false, tt).
Proof.
  apply (terminate_no_content_false _ _ _ stray).
  - reflexivity.
  - vm_compute. reflexivity.
Defined.

Lemma terminate_coerces_content_witness :
  should_agent_terminate (W:=unit) ApprovalTerminationStrategy_new nobody
    [plan; boxed] tt
  = (Return true, tt).
Proof.
  apply (terminate_coerces_content _ _ _ boxed
           (PyList [PyStr "READY FOR USER APPROVAL"])).
  - reflexivity.
  - vm_compute. reflexivity.
  - discriminate.
  - apply (py_str_list_holds _ "READY FOR USER APPROVAL").
    + left. reflexivity.
    + apply py_in_spec. vm_compute. reflexivity.
Defined.

(** The examples of the specification, section 8. *)
Example terminate_spec_examples :
  let run h :=
    fst (should_agent_terminate (W:=unit) ApprovalTerminationStrategy_new nobody h tt) in
  run [] = Return false /\
  run [ {["content" := PyStr "READY FOR USER APPROVAL"]} ] = Return true /\
  run [ {["content" := PyStr "not yet"]} ] = Return false /\
  run [ {["content" := PyStr "..."]};
        {["content" := PyStr "READY FOR USER APPROVAL now"]} ] = Return true /\
  run [ {["content" := PyStr "READY FOR USER APPROVAL"]};
        {["content" := PyStr "thanks"]} ] = Return false.
Proof. vm_compute. repeat split. Qed.

End TerminationFacts.

(** ** The turn driver: theorems *)

Module DriverFacts.
Import Python PythonFacts Termination Driver.
Local Open Scope py_scope.

Section Loop.
Context `{FW : Framework}.

Lemma bind_call_return {A B} (m : Py fw_state A) (k : A -> Py World B)
    (w : World) (a : A) (f : fw_state) :
  m (framework w) = (Return a, f) ->
  bind (call m) k w = k a (mkWorld (stdout w) f).
Proof. intros H. unfold bind, call. now rewrite H. Qed.

(** A call into the framework that raises: nothing catches the exception. *)
Lemma bind_call_raise {A B} (m : Py fw_state A) (k : A -> Py World B)
    (w : World) (e : PyException) (f : fw_state) :
  m (framework w) = (Raise e, f) ->
  bind (call m) k w = (Raise e, mkWorld (stdout w) f).
Proof. intros H. unfold bind, call. now rewrite H. Qed.

Lemma bind_ret {W A B} (a : A) (k : A -> Py W B) (w : W) :
  bind (ret a) k w = k a w.
Proof. reflexivity. Qed.

Lemma count_char_app (c : ascii) (a b : string) :
  count_char c (a +:+ b) = (count_char c a + count_char c b)%nat.
Proof.
  induction a as [|x a IH]; [reflexivity|].
  change (count_char c (String x (a +:+ b))
          = (count_char c (String x a) + count_char c b)%nat).
  cbn [count_char]. rewrite IH. lia.
Qed.

(** Rows of the console: when neither the names nor the contents hold a line
    feed, the text printed for [rs] is [length rs] rows, one per response. *)
Lemma console_lines_rows (rs : list PyObject) :
  Forall (fun r => exists name content,
            r !! "name" = Some name /\ r !! "content" = Some content /\
            count_char "010" (py_format name) = O /\
            count_char "010" (py_format content) = O) rs ->
  count_char "010" (console_lines rs) = length rs.
Proof.
  induction 1 as [|r rs (name & content & Hn & Hc & Hname & Hcontent) _ IH].
  - reflexivity.
  - cbn [console_lines length]. unfold console_line. rewrite Hn, Hc.
    rewrite !count_char_app, Hname, Hcontent, IH. reflexivity.
Qed.

(** Run the framework call at the head of the goal, whose outcome the
    hypothesis [H] gives. *)
Ltac call_returns H :=
  erewrite bind_call_return by exact H; cbv beta iota; cbn [stdout framework].
Ltac call_raises H :=
  erewrite bind_call_raise by exact H; cbn [stdout framework].

Lemma append_empty_r (a : string) : a +:+ "" = a.
Proof.
  induction a as [|x a IH]; [reflexivity|].
  change (String x (a +:+ "") = String x a). now rewrite IH.
Qed.

Lemma console_line_message (r : PyObject) (name content : PyVal) :
  r !! "name" = Some name ->
  r !! "content" = Some content ->
  console_line r = py_format name +:+ ": " +:+ py_format content +:+ newline.
Proof. intros Hn Hc. unfold console_line. now rewrite Hn, Hc. Qed.

(** One turn of the loop on a well-formed response: the response is
    appended, its line is printed, and the loop goes on. *)
Lemma async_for_turn (fuel : nat) (s : ResponseStream) (acc : list PyObject)
    (out : string) (f f1 : fw_state) (r : PyObject) :
  anext s f = (Return (Some r), f1) ->
  is_chat_message r ->
  async_for (S fuel) s acc (mkWorld out f)
  = async_for fuel s (acc ++ [r])%list (mkWorld (out +:+ console_line r) f1).
Proof.
  intros Hnext [[name Hname] [content Hcontent]].
  cbn [async_for].
  call_returns Hnext.
  rewrite (bind_return _ _ _ _ _ (getattr_some _ _ _ _ Hname)).
  rewrite (bind_return _ _ _ _ _ (getattr_some _ _ _ _ Hcontent)).
  unfold bind at 1, print. cbn [stdout framework].
  rewrite (console_line_message _ _ _ Hname Hcontent).
  now rewrite !append_assoc.
Qed.

(** The loop drains the stream: every response goes to the list and to the
    console, in the order of the stream, and the loop ends as the stream
    does. *)
Lemma async_for_drains (s : ResponseStream) (f : fw_state) (rs : list PyObject)
    (ending : StreamEnd) (f' : fw_state) :
  stream_yields s f rs ending f' ->
  Forall is_chat_message rs ->
  forall (fuel : nat) (acc : list PyObject) (out : string),
    (length rs < fuel)%nat ->
    async_for fuel s acc (mkWorld out f)
    = (match ending with
       | Stopped => Return (acc ++ rs)%list
       | Failed e => Raise e
       end,
       mkWorld (out +:+ console_lines rs) f').
Proof.
  induction 1 as [f f' Hnext | f f' e Hnext | f f1 f' r rs ending Hnext Hrest IH];
    intros Hwf fuel acc out Hfuel.
  - destruct fuel as [|fuel]; [cbn in Hfuel; lia|].
    cbn [async_for]. call_returns Hnext.
    cbn [stdout console_lines]. now rewrite app_nil_r, append_empty_r.
  - destruct fuel as [|fuel]; [cbn in Hfuel; lia|].
    cbn [async_for]. call_raises Hnext.
    cbn [stdout console_lines]. now rewrite append_empty_r.
  - destruct fuel as [|fuel]; [cbn in Hfuel; lia|].
    apply Forall_cons in Hwf as [Hr Hwf].
    rewrite (async_for_turn _ _ _ _ _ _ _ Hnext Hr).
    rewrite (IH Hwf fuel) by (cbn in Hfuel; lia).
    cbn [console_lines]. rewrite <- app_assoc, append_assoc. reflexivity.
Qed.

(** Run the driver through the calls whose outcomes are hypotheses. *)
Ltac run_setup :=
  unfold run_multi_agent;
  repeat first
    [ match goal with H : _ = (Return _, _) |- _ => call_returns H end
    | match goal with H : _ = (Raise _, _) |- _ => call_raises H end
    | progress (unfold create_agents; rewrite bind_ret; cbv beta iota zeta) ].

Ltac open_setup H :=
  repeat match type of H with
    | message_added _ _ _ _ => destruct H as (? & H & ?)
    | chat_built _ _ _ => destruct H as (? & ? & ? & H & ?)
    | selection_built _ _ _ _ => destruct H as (? & H & ?)
    | service_added _ _ _ => destruct H as (? & ? & H & ?)
    | service_built _ _ _ _ => destruct H as (? & H & ?)
    | kernel_built _ _ _ => unfold kernel_built in H
    end.

(** Once the conversation is open, the driver is its loop. *)
Lemma run_multi_agent_loop (fuel : nat) (input : string) (w : World)
    (chat : GroupChat) (f6 : fw_state) :
  message_added input (framework w) chat f6 ->
  run_multi_agent fuel input w
  = async_for fuel (invoke chat) [] (mkWorld (stdout w) f6).
Proof.
  intros H. open_setup H. run_setup.
  unfold bind. destruct (async_for _ _ _ _) as [[rs|e|] w']; reflexivity.
Qed.

(** C3. When the response stream yields the responses [rs] and ends, the
    driver returns exactly [rs]: the same responses, in the order of the
    stream, none dropped and none added. *)
Theorem run_multi_agent_returns_all_responses (fuel : nat) (input : string)
    (w : World) (chat : GroupChat) (f6 f7 : fw_state) (rs : list PyObject) :
  message_added input (framework w) chat f6 ->
  stream_yields (invoke chat) f6 rs Stopped f7 ->
  Forall is_chat_message rs ->
  (length rs < fuel)%nat ->
  fst (run_multi_agent fuel input w) = Return rs.
Proof.
  intros Hsetup Hstream Hwf Hfuel.
  rewrite (run_multi_agent_loop _ _ _ _ _ Hsetup).
  rewrite (async_for_drains _ _ _ _ _ Hstream Hwf fuel [] _ Hfuel).
  reflexivity.
Qed.

(** C4. No recovery, no retry, no translation: when a step of the framework
    raises [e] (building the kernel, the service or the chat, appending the
    user's message, or the response stream after some responses), the driver
    raises that same [e], and it leaves the framework in the state the
    failing step left, having called nothing after it. *)
Theorem run_multi_agent_propagates_failure (fuel : nat) (input : string)
    (w : World) (rs : list PyObject) (e : PyException) (f' : fw_state) :
  orchestrator_fails input (framework w) rs e f' ->
  (length rs < fuel)%nat ->
  run_multi_agent fuel input w
  = (Raise e, mkWorld (stdout w +:+ console_lines rs) f').
Proof.
  intros Hfails Hfuel.
  destruct Hfails as
    [e f' H | e k f1 f' H0 H | e k svc f2 f' H0 H | e k f3 f' H0 H
    | e k sel f4 f' H0 H | e chat f5 f' H0 H | e chat f6 rs f' H0 Hstream Hwf].
  1: run_setup; cbn [console_lines]; now rewrite append_empty_r.
  1-5: open_setup H0; run_setup; cbn [console_lines]; now rewrite append_empty_r.
  rewrite (run_multi_agent_loop _ _ _ _ _ H0).
  now rewrite (async_for_drains _ _ _ _ _ Hstream Hwf fuel [] _ Hfuel).
Qed.

(** C7. For every response the stream yields the driver prints one line,
    [name: content], and the lines come in the order in which the responses
    are appended to the list: after the run the console holds what it held
    before, followed by the line of each response in turn, whether the
    stream ended or broke off. *)
Theorem run_multi_agent_prints_each_response (fuel : nat) (input : string)
    (w : World) (chat : GroupChat) (f6 f7 : fw_state) (rs : list PyObject)
    (ending : StreamEnd) :
  message_added input (framework w) chat f6 ->
  stream_yields (invoke chat) f6 rs ending f7 ->
  Forall is_chat_message rs ->
  (length rs < fuel)%nat ->
  stdout (snd (run_multi_agent fuel input w)) = stdout w +:+ console_lines rs /\
  Forall (fun r => exists name content,
            r !! "name" = Some name /\ r !! "content" = Some content /\
            console_line r
            = py_format name +:+ ": " +:+ py_format content +:+ newline) rs.
Proof.
  intros Hsetup Hstream Hwf Hfuel. split.
  - rewrite (run_multi_agent_loop _ _ _ _ _ Hsetup).
    now rewrite (async_for_drains _ _ _ _ _ Hstream Hwf fuel [] _ Hfuel).
  - eapply Forall_impl; [exact Hwf|].
    intros r [[name Hname] [content Hcontent]]. exists name, content.
    auto using console_line_message.
Qed.

End Loop.

(** *** The theorems at work on the scripted framework *)

Import Scripted.

(** With credentials the scripted framework opens the conversation. *)
Lemma scripted_message_added (replies : list Reply) :
  message_added (FW:=scripted) "calculator" (mkStage true [] replies false)
    (agents_of (FW:=scripted) tt, should_agent_terminate ApprovalTerminationStrategy_new)
    (mkStage true [ChatMessageContent USER "calculator"] replies false).
Proof. repeat eexists. Qed.

Lemma scripted_replies_well_formed :
  Forall is_chat_message [plan; code; approval].
Proof. repeat constructor; eexists; reflexivity. Qed.

(** Play the script of a scripted stream to its end. *)
Ltac play_script :=
  repeat (eapply yields_more; [reflexivity|]);
  first [eapply yields_stop; reflexivity | eapply yields_fail; reflexivity].

Lemma run_multi_agent_returns_all_responses_witness :
  fst (run_multi_agent (FW:=scripted) 10 "calculator" (start true conversation))
  = Return [plan; code; approval].
Proof.
  eapply (run_multi_agent_returns_all_responses (FW:=scripted)).
  - apply scripted_message_added.
  - play_script.
  - exact scripted_replies_well_formed.
  - cbn. lia.
Defined.

Lemma run_multi_agent_propagates_failure_witness :
  run_multi_agent (FW:=scripted) 10 "calculator" (start false conversation)
  = (Raise (FrameworkError "ServiceInitializationError"), start false conversation)
  /\
  exists f',
    run_multi_agent (FW:=scripted) 10 "calculator" (start true broken_conversation)
    = (Raise (FrameworkError "ConnectionError"),
       mkWorld (FW:=scripted) ("" +:+ console_lines [plan]) f').
Proof.
  split.
  - apply (run_multi_agent_propagates_failure (FW:=scripted) 10 "calculator"
             (start false conversation) []).
    + eapply fails_service; reflexivity.
    + cbn. lia.
  - eexists.
    apply (run_multi_agent_propagates_failure (FW:=scripted) 10 "calculator"
             (start true broken_conversation) [plan]).
    + eapply fails_stream.
      * apply scripted_message_added.
      * play_script.
      * repeat constructor; eexists; reflexivity.
    + cbn. lia.
Defined.

Lemma run_multi_agent_prints_each_response_witness :
  stdout (snd (run_multi_agent (FW:=scripted) 10 "calculator" (start true conversation)))
  = "BusinessAnalyst: Requirements: a calculator with four operations." +:+ newline +:+
    "SoftwareEngineer: ```html <button>+</button> ```" +:+ newline +:+
    "ProductOwner: All requirements met. READY FOR USER APPROVAL" +:+ newline.
Proof.
  eapply eq_trans.
  - eapply (run_multi_agent_prints_each_response (FW:=scripted)).
    + apply scripted_message_added.
    + play_script.
    + exact scripted_replies_well_formed.
    + cbn. lia.
  - vm_compute. reflexivity.
Defined.

End DriverFacts.


(** ** The termination predicate on the values a content can take *)

Module ContentFacts.
Import Python PythonFacts Termination TerminationFacts Driver.
Local Open Scope py_scope.

Lemma repr_body_app (quote : ascii) (a b : string) :
  repr_body quote (a +:+ b) = repr_body quote a +:+ repr_body quote b.
Proof.
  induction a as [|x a IH]; [reflexivity|].
  change (repr_char quote x +:+ repr_body quote (a +:+ b)
          = (repr_char quote x +:+ repr_body quote a) +:+ repr_body quote b).
  now rewrite IH, append_assoc.
Qed.

(** No character of the sentinel is escaped, whichever quote [repr] picks:
    the text of a string is still readable in its [repr]. *)
Lemma repr_str_keeps_sentinel (s : string) :
  substring_of sentinel s -> substring_of sentinel (repr_str s).
Proof.
  intros (pre & post & ->). unfold repr_str. cbv zeta.
  destruct (has_char "'" (pre +:+ sentinel +:+ post) && _);
    apply substring_of_app_l;
    [ exists (String double_quote (repr_body double_quote pre)),
             (repr_body double_quote post)
    | exists (String "'" (repr_body "'" pre)), (repr_body "'" post) ];
    rewrite !repr_body_app; reflexivity.
Qed.

(** The text of a list holds the text of each of its elements. *)
Lemma py_repr_list_shows (needle : string) (items : list PyVal) (v : PyVal) :
  In v items ->
  substring_of needle (py_repr v) ->
  substring_of needle (py_repr (PyList items)).
Proof.
  intros Hin Hsub. cbn [py_repr].
  apply substring_of_app_r, substring_of_app_l.
  induction items as [|x items IH]; [contradiction|].
  destruct items as [|y items].
  - destruct Hin as [->|[]]. exact Hsub.
  - destruct Hin as [->|Hin].
    + apply substring_of_app_l. exact Hsub.
    + apply substring_of_app_r, substring_of_app_r, IH, Hin.
Qed.

Lemma shows_sentinel_repr (v : PyVal) :
  shows_sentinel v -> substring_of sentinel (py_repr v).
Proof.
  induction 1 as [s Hsub | items v Hin _ IH].
  - apply repr_str_keeps_sentinel, Hsub.
  - eapply py_repr_list_shows; eauto.
Qed.

Lemma shows_sentinel_str (v : PyVal) :
  shows_sentinel v -> substring_of sentinel (py_str v).
Proof.
  intros H. destruct H as [s Hsub | items v Hin Hv].
  - exact Hsub.
  - change (py_str (PyList items)) with (py_repr (PyList items)).
    eapply py_repr_list_shows; eauto using shows_sentinel_repr.
Qed.

Lemma has_char_app (c : ascii) (a b : string) :
  has_char c (a +:+ b) = has_char c a || has_char c b.
Proof.
  induction a as [|x a IH]; [reflexivity|].
  change (Ascii.eqb c x || has_char c (a +:+ b)
          = (Ascii.eqb c x || has_char c a) || has_char c b).
  now rewrite IH, orb_assoc.
Qed.

Lemma substring_has_char (c : ascii) (needle s : string) :
  substring_of needle s -> has_char c needle = true -> has_char c s = true.
Proof.
  intros (pre & post & ->) H. rewrite !has_char_app, H.
  now rewrite orb_true_r.
Qed.

(** The decimal digits of a number hold no letter. *)
Lemma pretty_N_go_no_letter (x : N) (s : string) :
  has_char "R" (pretty_N_go x s) = has_char "R" s.
Proof.
  revert s. induction (N.lt_wf_0 x) as [x _ IH]. intros s.
  assert (x = 0 \/ 0 < x)%N as [->|Hpos] by lia.
  - now rewrite pretty_N_go_0.
  - rewrite pretty_N_go_step by exact Hpos.
    rewrite IH by (apply N.div_lt; [exact Hpos | reflexivity]).
    cbn [has_char]. unfold pretty_N_char.
    now repeat case_match.
Qed.

Lemma scalar_has_no_letter (v : PyVal) :
  is_scalar v = true -> has_char "R" (py_str v) = false.
Proof.
  destruct v as [|[|]|z|s|items]; try discriminate; intros _; try reflexivity.
  change (py_str (PyInt z)) with (pretty z).
  destruct z as [|p|p]; [reflexivity| |].
  - change (pretty (Z.pos p)) with (pretty_N_go (N.pos p) "").
    apply pretty_N_go_no_letter.
  - change (pretty (Z.neg p)) with ("-" +:+ pretty_N_go (N.pos p) "").
    rewrite has_char_app, pretty_N_go_no_letter. reflexivity.
Qed.

Section Contents.
Context {W K : Type}.
Implicit Types (self : ApprovalTerminationStrategy) (agent : Agent K).
Implicit Types (history : list PyObject) (w : W).

(** X1. The predicate does not look at the role of the last message: on a
    history that ends with [ChatMessageContent(role, content)], the user's
    opening message included, it returns [True] exactly when [content]
    contains the sentinel. *)
Theorem terminate_on_chat_message self agent history role content w :
  should_agent_terminate self agent (history ++ [ChatMessageContent role content]) w
  = (Return true, w)
  <-> substring_of sentinel content.
Proof.
  rewrite should_agent_terminate_run. unfold verdict, ChatMessageContent.
  rewrite last_snoc.
  rewrite !lookup_insert_ne by discriminate. rewrite lookup_insert_eq.
  cbn [py_str]. rewrite <- py_in_spec.
  split; [intros H; now injection H | now intros ->].
Qed.

End Contents.

End ContentFacts.

(** ** The driver and [main] on every framework *)

Module DriverMore.
Import Python PythonFacts Termination Driver DriverFacts.
Local Open Scope py_scope.

Section Any.
Context `{FW : Framework}.

(** *** Reading a returned run backwards *)

Lemma bind_return_inv {W A B} (m : Py W A) (k : A -> Py W B) (w w' : W) (b : B) :
  bind m k w = (Return b, w') ->
  exists a w1, m w = (Return a, w1) /\ k a w1 = (Return b, w').
Proof.
  unfold bind. destruct (m w) as [[a|e|] w1]; intros H; try discriminate.
  exists a, w1. auto.
Qed.

Lemma call_return_inv {A} (m : Py fw_state A) (w w1 : World) (a : A) :
  call m w = (Return a, w1) ->
  exists f, m (framework w) = (Return a, f) /\ w1 = mkWorld (stdout w) f.
Proof.
  unfold call. destruct (m (framework w)) as [o f]. intros H.
  injection H as -> <-. exists f. auto.
Qed.

Lemma getattr_return_inv {W} (o : PyObject) (name : string) (v : PyVal) (w w' : W) :
  getattr o name w = (Return v, w') -> o !! name = Some v /\ w' = w.
Proof.
  unfold getattr. destruct (o !! name); intros H; [|discriminate].
  injection H as -> <-. auto.
Qed.

Ltac invert_call H a f Ha :=
  let w1 := fresh "w" in
  let Hc := fresh "Hc" in
  apply bind_return_inv in H as (a & w1 & Hc & H);
  apply call_return_inv in Hc as (f & Ha & ->);
  cbn [stdout framework] in *.

(** A loop that returns has drained its stream to the end, through chat
    messages only, and printed each of them. *)
Lemma async_for_return_inv (fuel : nat) (s : ResponseStream) :
  forall (acc : list PyObject) (out : string) (f : fw_state)
         (rs : list PyObject) (w' : World),
    async_for fuel s acc (mkWorld out f) = (Return rs, w') ->
    exists new,
      rs = (acc ++ new)%list /\
      stream_yields s f new Stopped (framework w') /\
      Forall is_chat_message new /\
      stdout w' = out +:+ console_lines new.
Proof.
  induction fuel as [|fuel IH]; intros acc out f rs w' H.
  - discriminate.
  - cbn [async_for] in H.
    invert_call H next f1 Hnext.
    destruct next as [r|].
    + apply bind_return_inv in H as (name & w1 & Hname & H).
      apply getattr_return_inv in Hname as [Hname ->].
      apply bind_return_inv in H as (content & w1 & Hcontent & H).
      apply getattr_return_inv in Hcontent as [Hcontent ->].
      unfold bind at 1, print in H. cbn [stdout framework] in H.
      apply IH in H as (new & -> & Hyields & Hwf & Hout).
      exists (r :: new). repeat split.
      * now rewrite <- app_assoc.
      * eapply yields_more; eauto.
      * constructor; [split; eauto | exact Hwf].
      * rewrite Hout. cbn [console_lines].
        rewrite (console_line_message _ _ _ Hname Hcontent).
        now rewrite !append_assoc.
    + injection H as <- <-. exists []. repeat split.
      * now rewrite app_nil_r.
      * now apply yields_stop.
      * constructor.
      * cbn [console_lines stdout]. now rewrite append_empty_r.
Qed.

(** A driver that returns has opened the conversation, and returns what its
    loop returns. *)
Lemma run_multi_agent_return_inv (fuel : nat) (input : string) (w w' : World)
    (rs : list PyObject) :
  run_multi_agent fuel input w = (Return rs, w') ->
  exists chat f6,
    message_added input (framework w) chat f6 /\
    async_for fuel (invoke chat) [] (mkWorld (stdout w) f6) = (Return rs, w').
Proof.
  unfold run_multi_agent. intros H.
  invert_call H k f1 Hk.
  invert_call H svc f2 Hsvc.
  invert_call H u f3 Hadd. destruct u.
  apply bind_return_inv in H as (agents & w1 & Hagents & H).
  injection Hagents as <- <-. cbv beta iota zeta in H.
  invert_call H sel f4 Hsel.
  invert_call H chat f5 Hchat.
  invert_call H u f6 Hmsg. destruct u.
  apply bind_return_inv in H as (rs' & w1 & Hloop & H).
  injection H as <- <-.
  exists chat, f6. split; [|exact Hloop].
  exists f5. split; [|exact Hmsg].
  exists k, sel, f4. split; [|exact Hchat].
  exists f3. split; [|exact Hsel].
  exists svc, f2. split; [|exact Hadd].
  exists f1. split; [exact Hk | exact Hsvc].
Qed.

(** X6. The driver never returns a partial or a padded list: when it returns
    [rs], every framework call before the loop succeeded, the stream yielded
    exactly [rs] and then stopped, every response was a chat message, and
    the console grew by exactly the lines of [rs]. *)
Theorem run_multi_agent_return_complete (fuel : nat) (input : string)
    (w w' : World) (rs : list PyObject) :
  run_multi_agent fuel input w = (Return rs, w') ->
  exists chat f6,
    message_added input (framework w) chat f6 /\
    stream_yields (invoke chat) f6 rs Stopped (framework w') /\
    Forall is_chat_message rs /\
    stdout w' = stdout w +:+ console_lines rs.
Proof.
  intros H. apply run_multi_agent_return_inv in H as (chat & f6 & Hsetup & H).
  apply async_for_return_inv in H as (new & -> & Hyields & Hwf & Hout).
  exists chat, f6. cbn [app]. auto.
Qed.

(** *** A response that is no chat message *)

Ltac call_returns H :=
  erewrite bind_call_return by exact H; cbv beta iota; cbn [stdout framework].

(** The loop works through the responses a stream has reached. *)
Lemma async_for_reaches (s : ResponseStream) (f : fw_state) (rs : list PyObject)
    (f' : fw_state) :
  stream_reaches s f rs f' ->
  Forall is_chat_message rs ->
  forall (fuel : nat) (acc : list PyObject) (out : string),
    async_for (length rs + fuel) s acc (mkWorld out f)
    = async_for fuel s (acc ++ rs)%list (mkWorld (out +:+ console_lines rs) f').
Proof.
  induction 1 as [f | f f1 f' r rs Hnext Hrest IH]; intros Hwf fuel acc out.
  - cbn [length console_lines Nat.add]. now rewrite app_nil_r, append_empty_r.
  - apply Forall_cons in Hwf as [Hr Hwf].
    cbn [length Nat.add].
    rewrite (async_for_turn _ _ _ _ _ _ _ Hnext Hr).
    rewrite (IH Hwf). cbn [console_lines].
    now rewrite <- app_assoc, append_assoc.
Qed.

(** X5. A response that lacks [name] or [content] stops the driver with an
    [AttributeError] for the attribute it reads first and finds missing:
    the lines of the earlier responses have been printed, none for the
    faulty one, no list is returned and the stream is not asked again. *)
Theorem run_multi_agent_malformed_response (fuel : nat) (input : string)
    (w : World) (chat : GroupChat) (f6 f7 f8 : fw_state)
    (rs : list PyObject) (bad : PyObject) :
  message_added input (framework w) chat f6 ->
  stream_reaches (invoke chat) f6 rs f7 ->
  Forall is_chat_message rs ->
  anext (invoke chat) f7 = (Return (Some bad), f8) ->
  ~ is_chat_message bad ->
  (length rs < fuel)%nat ->
  run_multi_agent fuel input w
  = (Raise (AttributeError (missing_attribute bad)),
     mkWorld (stdout w +:+ console_lines rs) f8).
Proof.
  intros Hsetup Hreach Hwf Hnext Hbad Hfuel.
  rewrite (run_multi_agent_loop _ _ _ _ _ Hsetup).
  replace fuel with (length rs + S (fuel - S (length rs)))%nat by lia.
  rewrite (async_for_reaches _ _ _ _ Hreach Hwf).
  cbn [async_for]. call_returns Hnext.
  unfold missing_attribute, is_chat_message in *.
  destruct (bad !! "name") as [name|] eqn:Hname.
  - rewrite (bind_return _ _ _ _ _ (getattr_some _ _ _ _ Hname)).
    destruct (bad !! "content") as [content|] eqn:Hcontent.
    + exfalso. apply Hbad. split; eauto.
    + now rewrite (bind_raise _ _ _ _ _ (getattr_none _ _ _ Hcontent)).
  - now rewrite (bind_raise _ _ _ _ _ (getattr_none _ _ _ Hname)).
Qed.

(** *** [main] *)

(** The recap loop prints a list of chat messages to its end. *)
Lemma for_response_print_ok (rs : list PyObject) :
  Forall is_chat_message rs ->
  forall (out : string) (f : fw_state),
    for_response_print rs (mkWorld out f)
    = (Return tt, mkWorld (out +:+ console_lines rs) f).
Proof.
  induction 1 as [|r rs [[name Hname] [content Hcontent]] _ IH]; intros out f.
  - cbn [for_response_print console_lines]. now rewrite append_empty_r.
  - cbn [for_response_print console_lines].
    rewrite (bind_return _ _ _ _ _ (getattr_some _ _ _ _ Hname)).
    rewrite (bind_return _ _ _ _ _ (getattr_some _ _ _ _ Hcontent)).
    unfold bind at 1, print. cbn [stdout framework]. rewrite IH.
    rewrite (console_line_message _ _ _ Hname Hcontent).
    now rewrite !append_assoc.
Qed.

(** X9. [main] ends as the driver ends.  When the driver returns, the recap
    cannot fail: [main] prints the banner and the line of every returned
    response, and returns.  When the driver raises or does not finish,
    [main] stops there with the same outcome: no banner, no recap. *)
Theorem main_follows_driver (fuel : nat) (w : World) :
  match run_multi_agent fuel user_input w with
  | (Return rs, w') =>
      main fuel w
      = (Return tt,
         mkWorld (stdout w' +:+ banner +:+ console_lines rs) (framework w'))
  | (Raise e, w') => main fuel w = (Raise e, w')
  | (OutOfFuel, w') => main fuel w = (OutOfFuel, w')
  end.
Proof.
  destruct (run_multi_agent fuel user_input w) as [[rs|e|] w'] eqn:Hrun;
    unfold main; cbv zeta; fold user_input; unfold bind at 1; rewrite Hrun;
    [|reflexivity|reflexivity].
  apply run_multi_agent_return_inv in Hrun as (chat & f6 & _ & Hloop).
  apply async_for_return_inv in Hloop as (new & -> & _ & Hwf & _).
  cbn [app]. unfold bind at 1, print. destruct w' as [out f].
  cbn [stdout framework].
  rewrite (for_response_print_ok _ Hwf). unfold banner.
  now rewrite !append_assoc.
Qed.

(** X8. On a conversation that runs to its end, [main] prints every response
    twice: the lines of the responses as they arrive, the banner, and the
    same lines again in the same order. *)
Theorem main_prints_conversation_twice (fuel : nat) (w : World)
    (chat : GroupChat) (f6 f7 : fw_state) (rs : list PyObject) :
  message_added user_input (framework w) chat f6 ->
  stream_yields (invoke chat) f6 rs Stopped f7 ->
  Forall is_chat_message rs ->
  (length rs < fuel)%nat ->
  main fuel w
  = (Return tt,
     mkWorld (stdout w +:+ console_lines rs +:+ banner +:+ console_lines rs) f7).
Proof.
  intros Hsetup Hstream Hwf Hfuel.
  unfold main. cbv zeta. fold user_input.
  unfold bind at 1.
  rewrite (run_multi_agent_loop _ _ _ _ _ Hsetup).
  rewrite (async_for_drains _ _ _ _ _ Hstream Hwf fuel [] _ Hfuel).
  cbn [app]. unfold bind at 1, print. cbn [stdout framework].
  rewrite (for_response_print_ok _ Hwf). unfold banner.
  now rewrite !append_assoc.
Qed.


End Any.

(** *** The theorems at work on the scripted framework *)

Import Scripted.

Lemma run_multi_agent_return_complete_witness :
  let run := run_multi_agent (FW:=scripted) 10 "calculator" (start true conversation) in
  exists chat f6,
    message_added (FW:=scripted) "calculator" (mkStage true [] conversation false) chat f6 /\
    stream_yields (FW:=scripted) chat f6 [plan; code; approval] Stopped
      (framework (snd run)) /\
    Forall is_chat_message [plan; code; approval] /\
    stdout (snd run) = "" +:+ console_lines [plan; code; approval].
Proof.
  apply (run_multi_agent_return_complete (FW:=scripted) 10 "calculator"
           (start true conversation)).
  reflexivity.
Defined.

Lemma run_multi_agent_malformed_response_witness :
  exists f8,
    run_multi_agent (FW:=scripted) 10 "calculator" (start true garbled_conversation)
    = (Raise (AttributeError "content"),
       mkWorld (FW:=scripted) ("" +:+ console_lines [plan]) f8).
Proof.
  eexists.
  eapply (run_multi_agent_malformed_response (FW:=scripted) 10 "calculator"
            (start true garbled_conversation) _ _ _ _ [plan] hollow).
  - apply scripted_message_added.
  - eapply reaches_more; [reflexivity | apply reaches_here].
  - repeat constructor; eexists; reflexivity.
  - reflexivity.
  - intros [_ [v Hv]]. vm_compute in Hv. discriminate.
  - cbn. lia.
Defined.

Lemma main_prints_conversation_twice_witness :
  stdout (snd (main (FW:=scripted) 10 (start true conversation)))
  = console_lines [plan; code; approval] +:+ banner +:+
    console_lines [plan; code; approval].
Proof.
  erewrite (main_prints_conversation_twice (FW:=scripted) 10
              (start true conversation) _ _ _ [plan; code; approval]).
  - reflexivity.
  - repeat eexists.
  - repeat (eapply yields_more; [reflexivity|]). eapply yields_stop. reflexivity.
  - repeat constructor; eexists; reflexivity.
  - cbn. lia.
Defined.

End DriverMore.

(** ** The predicate as the interpreter runs it: theorems *)

Module CPythonFacts.
Import Python PythonFacts Termination TerminationFacts ContentFacts CPython.
Local Open Scope py_scope.

(** Where [repr] returns, it returns the text of module [Python]. *)
Lemma repr_call_text (L : Limits) :
  forall (v : PyVal) (room : nat) (t : string),
    repr_call L room v = Return t -> t = py_repr v.
Proof.
  fix IH 1. intros v room t H. destruct v as [|b|z|s|items].
  - now injection H as <-.
  - now injection H as <-.
  - cbn [repr_call] in H. destruct (exceeds_digits L z); [discriminate|].
    now injection H as <-.
  - now injection H as <-.
  - destruct room as [|room]; [discriminate|].
    cbn [repr_call py_repr] in *.
    match type of H with
    | and_then (?join items) _ = _ => destruct (join items) as [body| |] eqn:Hjoin
    end; try discriminate.
    cbn [and_then] in H. injection H as <-. do 2 f_equal.
    revert body Hjoin. clear -IH. induction items as [|x items IHitems];
      intros body Hjoin.
    + now injection Hjoin as <-.
    + destruct items as [|y items].
      * apply (IH x room), Hjoin.
      * destruct (repr_call L room x) as [a| |] eqn:Hx; try discriminate.
        cbn [and_then] in Hjoin.
        match type of Hjoin with
        | and_then ?rest _ = _ => destruct rest as [b| |] eqn:Hrest
        end; try discriminate.
        cbn [and_then] in Hjoin. injection Hjoin as <-.
        apply IH in Hx as ->. now rewrite (IHitems b eq_refl).
Qed.

Lemma str_builtin_text (L : Limits) (v : PyVal) (t : string) :
  str_builtin L v = Return t -> t = py_str v.
Proof.
  destruct v; cbn [str_builtin py_str]; intros H;
    try (now injection H as <-); eapply repr_call_text, H.
Qed.

Section Strict.
Context {W K : Type} (L : Limits).
Implicit Types (self : ApprovalTerminationStrategy) (agent : Agent K).
Implicit Types (history : list (Object W)) (w : W).

Lemma strict_no_content self agent history m w :
  last history = Some m ->
  m !! "content" = None ->
  CPython.should_agent_terminate L self agent history w = (Return false, w).
Proof.
  intros Hlast Hnone. unfold CPython.should_agent_terminate.
  rewrite (proj2 (py_truthy_last history)) by eauto.
  rewrite (bind_return _ _ _ _ _ (py_getitem_last _ _ w Hlast)).
  unfold py_and, CPython.hasattr, CPython.getattr, bind, raise.
  now rewrite Hnone.
Qed.

(** On a stored content the call ends as [str()] ends. *)
Lemma strict_plain self agent history m content w :
  last history = Some m ->
  m !! "content" = Some (Plain content) ->
  CPython.should_agent_terminate L self agent history w
  = match str L content w with
    | (Return text, w') => (Return (py_in sentinel text), w')
    | (Raise e, w') => (Raise e, w')
    | (OutOfFuel, w') => (OutOfFuel, w')
    end.
Proof.
  intros Hlast Hcontent. unfold CPython.should_agent_terminate.
  rewrite (proj2 (py_truthy_last history)) by eauto.
  rewrite (bind_return _ _ _ _ _ (py_getitem_last _ _ w Hlast)).
  unfold py_and, CPython.hasattr, CPython.getattr, bind, ret.
  rewrite Hcontent.
  destruct (str L content w) as [[text|e|] w']; try reflexivity.
  unfold sentinel. now destruct (py_in _ text).
Qed.


(** A message without content is quiet, and so is a string content,
    whatever the limits. *)
Lemma no_content_quiet (m : Object W) w :
  m !! "content" = None -> quiet_content L w m.
Proof.
  intros H. left. exists "content". unfold CPython.getattr. now rewrite H.
Qed.


(** The two embeddings agree wherever [str()] returns: on the objects of
    module [Python], when the conversion of the last content meets no limit,
    the call of this module is the call of module [Termination]. *)
Lemma stored_agrees self agent (history : list PyObject) w :
  (forall m content,
     last history = Some m -> m !! "content" = Some content ->
     exists text, str_builtin L content = Return text) ->
  CPython.should_agent_terminate L self agent (stored <$> history) w
  = Termination.should_agent_terminate self agent history w.
Proof.
  intros Hfits. rewrite should_agent_terminate_run. unfold verdict.
  destruct (last history) as [m|] eqn:Hlast.
  - assert (Hlast' : last (stored (W:=W) <$> history) = Some (stored m))
      by (now rewrite fmap_last, Hlast).
    destruct (m !! "content") as [content|] eqn:Hcontent.
    + destruct (Hfits m content eq_refl Hcontent) as [text Htext].
      rewrite (strict_plain _ _ _ (stored m) (Builtin content) _ Hlast')
        by (unfold stored; now rewrite lookup_fmap, Hcontent).
      cbn [str]. rewrite Htext. now apply str_builtin_text in Htext as ->.
    + apply (strict_no_content _ _ _ (stored m)); [exact Hlast'|].
      unfold stored. now rewrite lookup_fmap, Hcontent.
  - apply last_None in Hlast as ->. reflexivity.
Qed.

(** X2. When the content is a list that holds, at some depth, a string
    containing the sentinel, the call returns [True] if [str()] of the list
    returns, and otherwise raises what [str()] raises: [RecursionError] for a
    nesting beyond the interpreter's room, [ValueError] for an integer beyond
    its digit limit. *)
Theorem terminate_on_shown_sentinel self agent history m content w :
  last history = Some m ->
  m !! "content" = Some (Plain (Builtin content)) ->
  shows_sentinel content ->
  CPython.should_agent_terminate L self agent history w
  = (and_then (str_builtin L content) (fun _ => Return true), w).
Proof.
  intros Hlast Hcontent Hshows.
  rewrite (strict_plain _ _ _ _ _ _ Hlast Hcontent). cbn [str].
  destruct (str_builtin L content) as [text|e|] eqn:Hstr; try reflexivity.
  apply str_builtin_text in Hstr as ->.
  apply shows_sentinel_str, py_in_spec in Hshows. now rewrite Hshows.
Qed.

(** X3. When the content is [None], a boolean or an integer, the call never
    returns [True]: it returns [False], except for an integer of more digits
    than the interpreter converts, on which it raises [ValueError]. *)
Theorem terminate_scalar_content self agent history m content w :
  last history = Some m ->
  m !! "content" = Some (Plain (Builtin content)) ->
  is_scalar content = true ->
  CPython.should_agent_terminate L self agent history w
  = (if overflows L content then Raise ValueError else Return false, w).
Proof.
  intros Hlast Hcontent Hscalar.
  rewrite (strict_plain _ _ _ _ _ _ Hlast Hcontent). cbn [str].
  assert (Hnone : py_in sentinel (py_str content) = false).
  { apply py_in_false. intros Hsub.
    apply (substring_has_char "R") in Hsub; [|reflexivity].
    rewrite (scalar_has_no_letter _ Hscalar) in Hsub. discriminate. }
  destruct content as [|b|z|s|items]; try discriminate;
    cbn [str_builtin repr_call overflows]; cbn [py_str] in Hnone.
  - now rewrite Hnone.
  - now rewrite Hnone.
  - destruct (exceeds_digits L z); [reflexivity|].
    cbn [py_repr] in Hnone. now rewrite Hnone.
Qed.

End Strict.

Lemma wrapped_shows (n : nat) : shows_sentinel (wrapped n).
Proof.
  induction n as [|n IH].
  - apply shows_str. exists "", "". reflexivity.
  - eapply shows_list; [left; reflexivity | exact IH].
Qed.

(** *** The theorems at work *)

Import Driver Scripted.



Lemma terminate_on_shown_sentinel_witness :
  CPython.should_agent_terminate (W:=unit) default_limits
    ApprovalTerminationStrategy_new nobody [stored plan; stored nested] tt
  = (Return true, tt) /\
  CPython.should_agent_terminate (W:=unit) default_limits
    ApprovalTerminationStrategy_new nobody [stored plan; deep] tt
  = (Raise RecursionError, tt).
Proof.
  split.
  - eapply eq_trans.
    + apply (terminate_on_shown_sentinel default_limits _ _ _ (stored nested)
               (PyList [PyInt 1; PyList [PyNone; PyStr "so: READY FOR USER APPROVAL!"]])).
      * reflexivity.
      * vm_compute. reflexivity.
      * eapply shows_list; [right; left; reflexivity|].
        eapply shows_list; [right; left; reflexivity|].
        apply shows_str. exists "so: ", "!". reflexivity.
    + vm_compute. reflexivity.
  - eapply eq_trans.
    + apply (terminate_on_shown_sentinel default_limits _ _ _ deep (wrapped 5000)).
      * reflexivity.
      * vm_compute. reflexivity.
      * apply wrapped_shows.
    + vm_compute. reflexivity.
Defined.

Lemma terminate_scalar_content_witness :
  CPython.should_agent_terminate (W:=unit) default_limits
    ApprovalTerminationStrategy_new nobody [stored approval; stored counted] tt
  = (Return false, tt) /\
  CPython.should_agent_terminate (W:=unit) default_limits
    ApprovalTerminationStrategy_new nobody [stored approval; overflowing] tt
  = (Raise ValueError, tt).
Proof.
  split.
  - eapply eq_trans.
    + apply (terminate_scalar_content default_limits _ _ _ (stored counted) (PyInt (-42))).
      * reflexivity.
      * vm_compute. reflexivity.
      * reflexivity.
    + vm_compute. reflexivity.
  - eapply eq_trans.
    + apply (terminate_scalar_content default_limits _ _ _ overflowing (PyInt (10 ^ 4300))).
      * reflexivity.
      * vm_compute. reflexivity.
      * reflexivity.
    + vm_compute. reflexivity.
Defined.

End CPythonFacts.
